(** * PybindUtils.h: utilities for interop between the MLIR C API and pybind11

  A shallow embedding of [mlir/lib/Bindings/Python/PybindUtils.h]:
  the [Defaulting] wrapper with its type caster [MlirDefaultingCaster],
  and the three [MlirStringCallback] accumulators [PyPrintAccumulator],
  [PyFileAccumulator] and [PySinglePartStringAccumulator].

  C++ member functions become functions in a small state monad whose
  outcomes distinguish a normal return, a propagating C++ exception and a
  failed [assert]. *)

From Stdlib Require Import String.
From Stdlib Require Import List NArith Bool.
From Stdlib Require Import Strings.Byte.
Import ListNotations.

Set Implicit Arguments.

(** ** The host runtime: bytes, Python strings, exceptions *)

Module Py.

(** A chunk [(const char *part, intptr_t size)] is the [size] bytes at
    [part]. *)
Definition chunk := list byte.

(** A Python [str] is a sequence of Unicode code points. *)
Definition str := list N.

(** A Python [bytes] object. *)
Definition bytes := list byte.

(** The Python objects this header meets: [None], the [bytes] and [str]
    objects the accumulators build, and instances of classes bound through
    pybind11, each holding a C++ object at some address. *)
Inductive object : Type :=
| None_
| Bytes_ (b : bytes)
| Str_ (s : str)
| Instance (cls : string) (self : N).

(** [handle::is_none()]. *)
Definition is_none (h : object) : bool :=
  match h with
  | None_ => true
  | _ => false
  end.

(** A [pybind11::str] member: it owns a string object, or is null once it
    has been moved from. *)
Definition str_holder := option str.

(** [pybind11::str()] is the empty string. *)
Definition str_default : str_holder := Some [].

(** C++ exceptions that cross this header.  All of them derive from
    [std::exception] ([pybind11::cast_error] and
    [pybind11::error_already_set] are [std::runtime_error]s), so a handler
    [catch (std::exception &)] catches each of them. *)
Inductive exn : Type :=
| cast_error (what : string)
| error_already_set (pyexc : string) (message : string)
| runtime_error (what : string).

(** *** UTF-8 *)

(** State of the decoder between two bytes: at a character boundary, or
    inside a multi-byte sequence with [needed] continuation bytes to come,
    the bits collected so far, and the range allowed for the next byte. *)
Inductive dstate : Type :=
| Boundary
| Inside (needed : nat) (cp : N) (lower upper : N).

Inductive dstep : Type :=
| Emit (cp : N)
| Continue (st : dstate)
| Malformed.

Definition in_range (lo hi b : N) : bool := (lo <=? b)%N && (b <=? hi)%N.

(** A lead byte: ASCII is emitted at once; [C2..DF], [E0..EF] and [F0..F4]
    open a sequence of two, three or four bytes.  The narrowed ranges after
    [E0], [ED], [F0] and [F4] exclude over-long forms, surrogates and code
    points above [U+10FFFF]. *)
Definition lead (b : N) : dstep :=
  if (b <=? 0x7F)%N then Emit b
  else if in_range 0xC2 0xDF b then
    Continue (Inside 0 (N.land b 0x1F) 0x80 0xBF)
  else if in_range 0xE0 0xEF b then
    Continue (Inside 1 (N.land b 0x0F)
                (if (b =? 0xE0)%N then 0xA0 else 0x80)
                (if (b =? 0xED)%N then 0x9F else 0xBF))
  else if in_range 0xF0 0xF4 b then
    Continue (Inside 2 (N.land b 0x07)
                (if (b =? 0xF0)%N then 0x90 else 0x80)
                (if (b =? 0xF4)%N then 0x8F else 0xBF))
  else Malformed.

(** A byte inside a sequence; [needed] counts the bytes still to come
    after this one. *)
Definition trail (needed : nat) (cp lower upper b : N) : dstep :=
  if in_range lower upper b then
    let cp' := N.lor (N.shiftl cp 6) (N.land b 0x3F) in
    match needed with
    | O => Emit cp'
    | S n => Continue (Inside n cp' 0x80 0xBF)
    end
  else Malformed.

Definition step (st : dstate) (b : byte) : dstep :=
  match st with
  | Boundary => lead (Byte.to_N b)
  | Inside needed cp lower upper => trail needed cp lower upper (Byte.to_N b)
  end.

Fixpoint decode_from (st : dstate) (bs : list byte) : option str :=
  match bs with
  | [] => match st with Boundary => Some [] | Inside _ _ _ _ => None end
  | b :: rest =>
      match step st b with
      | Emit cp => option_map (cons cp) (decode_from Boundary rest)
      | Continue st' => decode_from st' rest
      | Malformed => None
      end
  end.

(** Modelled from the spec: the constructor
    [pybind11::str(const char *, size_t)] belongs to pybind11 and is not
    part of this header; the header relies on it to decode a chunk "as
    UTF-8" (it calls [PyUnicode_FromStringAndSize], which decodes strictly
    and fails on a byte sequence that is not well-formed UTF-8).
    [utf8_decode bs] is the decoded string, or [None] when [bs] is not
    well-formed. *)
Definition utf8_decode (bs : list byte) : option str :=
  decode_from Boundary bs.

(** [pybind11::str(part, size)]: the decoded string, or an exception when
    the runtime produced no string object. *)
Definition pybind11_str (part : chunk) : exn + str :=
  match utf8_decode part with
  | Some s => inr s
  | None => inl (runtime_error "Could not allocate string object!")
  end.

(** [pybind11::bytes(part, size)]: a fresh copy of the chunk. *)
Definition pybind11_bytes (part : chunk) : bytes := part.

(** [str.join] with the empty delimiter. *)
Definition str_join_empty (parts : list str) : str := concat parts.

End Py.

(** ** Outcomes of C++ member functions *)

Module Cxx.

Import Py.

(** A call on an object in state [S] returns normally with a result and the
    new state, leaves by an exception (the state is what the call had made
    of it when the exception was thrown), or hits a failed [assert] and
    aborts the process. *)
Inductive outcome (S A : Type) : Type :=
| Returned (a : A) (s : S)
| Raised (e : exn) (s : S)
| Aborted (assertion : string).

Arguments Returned {S A} a s.
Arguments Raised {S A} e s.
Arguments Aborted {S A} assertion.

Definition M (S A : Type) : Type := S -> outcome S A.

Definition ret {S A} (a : A) : M S A := fun s => Returned a s.

Definition bind {S A B} (m : M S A) (k : A -> M S B) : M S B :=
  fun s =>
    match m s with
    | Returned a s' => k a s'
    | Raised e s' => Raised e s'
    | Aborted msg => Aborted msg
    end.

Definition throw {S A} (e : exn) : M S A := fun s => Raised e s.

Definition get_state {S} : M S S := fun s => Returned s s.

Definition put_state {S} (s : S) : M S unit := fun _ => Returned tt s.

(** A library call that either throws or yields a value. *)
Definition call {S A} (r : exn + A) : M S A :=
  match r with
  | inl e => throw e
  | inr a => ret a
  end.

(** [assert(cond && "message")], assertions enabled. *)
Definition assert_ {S} (cond : bool) (message : string) : M S unit :=
  fun s => if cond then Returned tt s else Aborted message.

(** [try { body } catch (std::exception &e) { handler }]: every exception
    of [exn] derives from [std::exception]. *)
Definition try_catch {S A} (body : M S A) (handler : exn -> M S A) : M S A :=
  fun s =>
    match body s with
    | Raised e s' => handler e s'
    | o => o
    end.

Module Notations.
  Notation "x <- c1 ;; c2" := (bind c1 (fun x => c2))
    (at level 61, c1 at next level, right associativity).
  Notation "c1 ;; c2" := (bind c1 (fun _ => c2))
    (at level 61, right associativity).
End Notations.

End Cxx.

Import Cxx.Notations.

(** ** [PyPrintAccumulator] *)

Module PyPrintAccumulator.

Import Py Cxx.

(** [pybind11::list parts]; default-constructed, the list is empty. *)
Record t : Type := mk { parts : list str }.

Definition init : t := {| parts := [] |}.

(** The callback returned by [getCallback], applied to the accumulator
    that [getUserData] designates. *)
Definition getCallback (part : chunk) : M t unit :=
  pyPart <- call (pybind11_str part) ;;
  printAccum <- get_state ;;
  put_state {| parts := parts printAccum ++ [pyPart] |}.

Definition join : M t str :=
  printAccum <- get_state ;;
  ret (str_join_empty (parts printAccum)).

(** The native side invokes the callback once per chunk, in order; an
    exception leaving the callback ends the native call. *)
Fixpoint feed (chunks : list chunk) : M t unit :=
  match chunks with
  | [] => ret tt
  | c :: rest => getCallback c ;; feed rest
  end.

End PyPrintAccumulator.

(** ** [PyFileAccumulator] *)

Module PyFileAccumulator.

Import Py Cxx.

(** What the callback does to the world outside the accumulator: it takes
    and drops the interpreter lock, and it calls into the file object. *)
Inductive event : Type :=
| gil_acquire
| gil_release
| py_write (arg : object).

Section Sink.

(** State of the file-like object behind [pyWriteFunction]. *)
Variable Sink : Type.

(** A bound Python method taking one argument: it may raise, and it may
    change the object it is bound to. *)
Definition py_method := object -> Sink -> option exn * Sink.

Record file_object : Type := { attr_write : option py_method }.

Record t : Type := { pyWriteFunction : py_method; binary : bool }.

(** [PyFileAccumulator(fileObject, binary)]; looking up the attribute
    raises when the object has no [write]. *)
Definition make (fileObject : file_object) (binary : bool) : exn + t :=
  match attr_write fileObject with
  | Some f => inr {| pyWriteFunction := f; binary := binary |}
  | None => inl (error_already_set "AttributeError" "write")
  end.

Record world : Type := { sink : Sink; trace : list event }.

Definition emit (ev : event) : M world unit :=
  fun w => Returned tt {| sink := sink w; trace := trace w ++ [ev] |}.

(** Constructor and destructor of [pybind11::gil_scoped_acquire]. *)
Definition gil_scoped_acquire_ctor : M world unit := emit gil_acquire.
Definition gil_scoped_acquire_dtor : M world unit := emit gil_release.

(** The expression statement [pybind11::gil_scoped_acquire();] creates a
    temporary, which is destroyed when the statement ends. *)
Definition gil_scoped_acquire_temporary : M world unit :=
  gil_scoped_acquire_ctor ;; gil_scoped_acquire_dtor.

(** [f(arg)] on a Python callable; the result object is discarded. *)
Definition py_call (f : py_method) (arg : object) : M world unit :=
  emit (py_write arg) ;;
  w <- get_state ;;
  match f arg (sink w) with
  | (None, s') => put_state {| sink := s'; trace := trace w |}
  | (Some e, s') => put_state {| sink := s'; trace := trace w |} ;; throw e
  end.

(** The callback returned by [getCallback], applied to the accumulator
    that [getUserData] designates. *)
Definition getCallback (accum : t) (part : chunk) : M world unit :=
  gil_scoped_acquire_temporary ;;
  if binary accum then
    let pyBytes := pybind11_bytes part in
    py_call (pyWriteFunction accum) (Bytes_ pyBytes)
  else
    pyStr <- call (pybind11_str part) ;;
    py_call (pyWriteFunction accum) (Str_ pyStr).

(** The native side invokes the callback once per chunk, in order; an
    exception leaving the callback ends the native call. *)
Fixpoint feed (accum : t) (chunks : list chunk) : M world unit :=
  match chunks with
  | [] => ret tt
  | c :: rest => getCallback accum c ;; feed accum rest
  end.

End Sink.

(** The arguments of the calls to the sink's [write], in call order. *)
Fixpoint writes (tr : list event) : list object :=
  match tr with
  | [] => []
  | py_write arg :: rest => arg :: writes rest
  | _ :: rest => writes rest
  end.

(** For a thread that enters a trace holding the interpreter lock [depth]
    times over: how many times it holds the lock at each call to [write]. *)
Fixpoint depth_at_writes (depth : nat) (tr : list event) : list nat :=
  match tr with
  | [] => []
  | gil_acquire :: rest => depth_at_writes (S depth) rest
  | gil_release :: rest => depth_at_writes (pred depth) rest
  | py_write _ :: rest => depth :: depth_at_writes depth rest
  end.

(** What the sink is to receive for a chunk: a byte buffer with the chunk's
    bytes in binary mode, the UTF-8 decoding of the chunk in text mode. *)
Definition write_argument (binary : bool) (part : chunk) : option object :=
  if binary then Some (Bytes_ part) else option_map Str_ (utf8_decode part).

(** An in-memory byte sink ([io.BytesIO]): it stores [bytes] and rejects
    everything else. *)
Definition BytesIO_write : py_method (list byte) :=
  fun arg content =>
    match arg with
    | Bytes_ b => (None, content ++ b)
    | _ => (Some (error_already_set "TypeError" "a bytes-like object is required"), content)
    end.

(** An in-memory text sink ([io.StringIO]). *)
Definition StringIO_write : py_method str :=
  fun arg content =>
    match arg with
    | Str_ s => (None, content ++ s)
    | _ => (Some (error_already_set "TypeError" "string argument expected"), content)
    end.

End PyFileAccumulator.

(** ** [PySinglePartStringAccumulator] *)

Module PySinglePartStringAccumulator.

Import Py Cxx.

Record t : Type := { value : str_holder; invoked : bool }.

(** [pybind11::str value;] and [bool invoked = false;]. *)
Definition init : t := {| value := str_default; invoked := false |}.

(** The callback returned by [getCallback], applied to the accumulator
    that [getUserData] designates. *)
Definition getCallback (part : chunk) : M t unit :=
  accum <- get_state ;;
  assert_ (negb (invoked accum))
    "PySinglePartStringAccumulator called back multiple times" ;;
  put_state {| value := value accum; invoked := true |} ;;
  s <- call (pybind11_str part) ;;
  accum <- get_state ;;
  put_state {| value := Some s; invoked := invoked accum |}.

(** [return std::move(value);] hands the string over and leaves the member
    null. *)
Definition takeValue : M t str_holder :=
  accum <- get_state ;;
  assert_ (invoked accum) "PySinglePartStringAccumulator not called back" ;;
  put_state {| value := None; invoked := invoked accum |} ;;
  ret (value accum).

End PySinglePartStringAccumulator.

(** ** [Defaulting] *)

Module Defaulting.

(** The address of a [ReferrentTy] object; a [ReferrentTy &] is one. *)
Definition address := N.

(** A [ReferrentTy *]: [nullptr], or the address of an object. *)
Definition pointer := option address.

Definition nullptr : pointer := None.

Record t : Type := { referrent : pointer }.

(** [Defaulting() = default;] with [referrent = nullptr]. *)
Definition default : t := {| referrent := nullptr |}.

(** [Defaulting(ReferrentTy &referrent) : referrent(&referrent)]. *)
Definition make (r : address) : t := {| referrent := Some r |}.

Definition get (d : t) : pointer := referrent d.

(** [operator->]. *)
Definition arrow (d : t) : pointer := referrent d.

End Defaulting.

(** ** [MlirDefaultingCaster] *)

Module MlirDefaultingCaster.

Import Py Cxx.

Section DefaultingTy.

(** The process-wide state that the resolver consults. *)
Variable G : Type.

(** [DefaultingTy::resolve()]: it yields a reference or raises. *)
Variable resolve : G -> (exn + Defaulting.address) * G.

(** [DefaultingTy::kTypeDescription]. *)
Variable kTypeDescription : string.

(** [pybind11::cast<typename DefaultingTy::ReferrentTy &>(src)]: a
    reference to the C++ object inside [src], or an exception. *)
Variable pybind11_cast : object -> exn + Defaulting.address.

(** [PYBIND11_TYPE_CASTER(DefaultingTy, _(DefaultingTy::kTypeDescription))]
    declares the member [value] and the name shown in signatures. *)
Record t : Type := { value : Defaulting.t }.

Definition name : string := kTypeDescription.

Definition call_resolve : M (t * G) Defaulting.address :=
  fun st =>
    match resolve (snd st) with
    | (inl e, g') => Raised e (fst st, g')
    | (inr r, g') => Returned r (fst st, g')
    end.

Definition assign_value (d : Defaulting.t) : M (t * G) unit :=
  fun st => Returned tt ({| value := d |}, snd st).

Definition load (src : object) (convert : bool) : M (t * G) bool :=
  if is_none src then
    r <- call_resolve ;;
    assign_value (Defaulting.make r) ;;
    ret true
  else
    try_catch
      (r <- call (pybind11_cast src) ;;
       assign_value (Defaulting.make r) ;;
       ret true)
      (fun e => ret false).

End DefaultingTy.

(** A caster for a bound class: the cast succeeds on instances of the
    class and throws [cast_error] on anything else. *)
Definition cast_instance_of (cls : string) (src : object)
  : exn + Defaulting.address :=
  match src with
  | Instance c self =>
      if String.eqb c cls then inr self
      else inl (cast_error "Unable to cast Python instance to C++ type")
  | _ => inl (cast_error "Unable to cast Python instance to C++ type")
  end.

(** A resolver over an optional current default, as a context-like type
    keeps one: it raises when none is set. *)
Definition resolve_current (g : option Defaulting.address)
  : (exn + Defaulting.address) * option Defaulting.address :=
  match g with
  | Some d => (inr d, g)
  | None => (inl (error_already_set "RuntimeError" "no current default"), g)
  end.

End MlirDefaultingCaster.

(** ** Concrete runs *)

Module Scenario.

Import Py Cxx.

(** The chunks ["He"], ["llo"], the empty chunk and [" world"]. *)
Definition hello_chunks : list chunk :=
  [[x48; x65]; [x6c; x6c; x6f]; []; [x20; x77; x6f; x72; x6c; x64]].

Definition hello_parts : list str :=
  [[72; 101]; [108; 108; 111]; []; [32; 119; 111; 114; 108; 100]]%N.

(** The two bytes of U+00E9, delivered as two chunks. *)
Definition split_e_acute : list chunk := [[xc3]; [xa9]].

(** Four raw bytes, not UTF-8. *)
Definition deadbeef : chunk := [xde; xad; xbe; xef].

(** A binary-mode accumulator over an in-memory byte sink, and a text-mode
    accumulator over an in-memory text sink. *)
Definition binary_accum : PyFileAccumulator.t (list byte) :=
  {| PyFileAccumulator.pyWriteFunction := PyFileAccumulator.BytesIO_write;
     PyFileAccumulator.binary := true |}.

Definition text_accum : PyFileAccumulator.t str :=
  {| PyFileAccumulator.pyWriteFunction := PyFileAccumulator.StringIO_write;
     PyFileAccumulator.binary := false |}.

(** An empty sink, and nothing has happened yet. *)
Definition fresh_world {A : Type} : PyFileAccumulator.world (list A) :=
  {| PyFileAccumulator.sink := []; PyFileAccumulator.trace := [] |}.

(** A [Defaulting] type over a class [Context]: Python instances of
    [Context] cast to it, and its resolver returns the current default. *)
Definition Context_cast : object -> exn + Defaulting.address :=
  MlirDefaultingCaster.cast_instance_of "Context".

Definition Context_resolve
  : option Defaulting.address
    -> (exn + Defaulting.address) * option Defaulting.address :=
  MlirDefaultingCaster.resolve_current.

Definition scratch_caster : MlirDefaultingCaster.t :=
  {| MlirDefaultingCaster.value := Defaulting.default |}.

End Scenario.

(** ** Measures on chunks and traces *)

Module Measure.

Import Py Cxx.

(** A byte below [0x80]. *)
Definition is_ascii (b : byte) : bool := (Byte.to_N b <=? 0x7F)%N.

Definition ascii_only (part : chunk) : bool := forallb is_ascii part.

(** The code points of a chunk of ASCII: one per byte, with its value. *)
Definition ascii_code_points (part : chunk) : str := map Byte.to_N part.

(** For a thread that enters a trace holding the interpreter lock [depth]
    times over: how many times it holds the lock when the trace ends. *)
Fixpoint gil_depth (depth : nat) (tr : list PyFileAccumulator.event) : nat :=
  match tr with
  | [] => depth
  | PyFileAccumulator.gil_acquire :: rest => gil_depth (S depth) rest
  | PyFileAccumulator.gil_release :: rest => gil_depth (pred depth) rest
  | PyFileAccumulator.py_write _ :: rest => gil_depth depth rest
  end.

(** A sink whose [write] always raises, as a closed file does. *)
Definition closed_file_write : PyFileAccumulator.py_method unit :=
  fun _ st =>
    (Some (error_already_set "ValueError" "I/O operation on closed file"), st).

Definition closed_accum : PyFileAccumulator.t unit :=
  {| PyFileAccumulator.pyWriteFunction := closed_file_write;
     PyFileAccumulator.binary := true |}.

Definition closed_world : PyFileAccumulator.world unit :=
  {| PyFileAccumulator.sink := tt; PyFileAccumulator.trace := [] |}.

End Measure.

(** * Properties *)

Unset Implicit Arguments.

Import Py Cxx Scenario Measure.

(** ** UTF-8 decoding and concatenation *)

(** Decoding that ends well ends at a character boundary, so what follows
    is decoded from a boundary. *)
Lemma decode_from_app (a b : list byte) (y : str) :
  decode_from Boundary b = Some y ->
  forall (st : dstate) (x : str),
    decode_from st a = Some x ->
    decode_from st (a ++ b) = Some (x ++ y).
Proof.
  intros Hb.
  induction a as [|c a IH]; intros st x Ha; simpl in *.
  - destruct st; [|discriminate].
    injection Ha as <-. exact Hb.
  - destruct (step st c) as [cp|st'|]; [| auto | discriminate].
    destruct (decode_from Boundary a) as [x'|] eqn:E; [|discriminate].
    injection Ha as <-.
    rewrite (IH Boundary x' E). reflexivity.
Qed.

Lemma utf8_decode_app (a b : list byte) (x y : str) :
  utf8_decode a = Some x ->
  utf8_decode b = Some y ->
  utf8_decode (a ++ b) = Some (x ++ y).
Proof.
  intros Ha Hb. unfold utf8_decode in *.
  now apply decode_from_app.
Qed.

Lemma utf8_decode_nil : utf8_decode [] = Some [].
Proof. reflexivity. Qed.

(** Chunks that decode one by one decode, concatenated, to the
    concatenation of their decodings. *)
Lemma utf8_decode_concat (chunks : list chunk) :
  forall decoded : list str,
    map utf8_decode chunks = map Some decoded ->
    utf8_decode (concat chunks) = Some (concat decoded).
Proof.
  induction chunks as [|c chunks IH]; intros [|s decoded] H;
    try discriminate; simpl in *.
  - reflexivity.
  - injection H as Hc Hrest.
    apply utf8_decode_app; auto.
Qed.

Lemma pybind11_str_decoded (part : chunk) (s : str) :
  utf8_decode part = Some s -> pybind11_str part = inr s.
Proof. unfold pybind11_str. now intros ->. Qed.

Lemma pybind11_str_malformed (part : chunk) :
  utf8_decode part = None ->
  pybind11_str part = inl (runtime_error "Could not allocate string object!").
Proof. unfold pybind11_str. now intros ->. Qed.

(** ** [PyPrintAccumulator] *)

Lemma print_callback_appends (part : chunk) (s : str)
    (acc : PyPrintAccumulator.t) :
  utf8_decode part = Some s ->
  PyPrintAccumulator.getCallback part acc
  = Returned tt
      {| PyPrintAccumulator.parts := PyPrintAccumulator.parts acc ++ [s] |}.
Proof.
  intros H. unfold PyPrintAccumulator.getCallback, bind.
  rewrite (pybind11_str_decoded part s H). reflexivity.
Qed.

Lemma print_callback_raises (part : chunk) (acc : PyPrintAccumulator.t) :
  utf8_decode part = None ->
  PyPrintAccumulator.getCallback part acc
  = Raised (runtime_error "Could not allocate string object!") acc.
Proof.
  intros H. unfold PyPrintAccumulator.getCallback, bind.
  rewrite (pybind11_str_malformed part H). reflexivity.
Qed.

Lemma print_feed_appends (chunks : list chunk) :
  forall (decoded : list str) (acc : PyPrintAccumulator.t),
    map utf8_decode chunks = map Some decoded ->
    PyPrintAccumulator.feed chunks acc
    = Returned tt
        {| PyPrintAccumulator.parts :=
             PyPrintAccumulator.parts acc ++ decoded |}.
Proof.
  induction chunks as [|c chunks IH]; intros [|s decoded] acc H;
    try discriminate; simpl in *.
  - rewrite app_nil_r. now destruct acc.
  - injection H as Hc Hrest.
    unfold bind. rewrite (print_callback_appends c s acc Hc).
    rewrite (IH decoded _ Hrest). simpl.
    now rewrite <- app_assoc.
Qed.

(** C1, as the code has it.  When every chunk is well-formed UTF-8 on its
    own, feeding [c1..cn] and then calling [join] returns the concatenation
    of the decoded chunks, which is the UTF-8 decoding of the concatenated
    bytes; the accumulator then holds exactly one part per chunk, in arrival
    order (an empty chunk decodes to the empty part). *)
Theorem join_concatenates_decoded_chunks
    (chunks : list chunk) (decoded : list str) :
  map utf8_decode chunks = map Some decoded ->
  (PyPrintAccumulator.feed chunks ;; PyPrintAccumulator.join)
    PyPrintAccumulator.init
  = Returned (concat decoded) {| PyPrintAccumulator.parts := decoded |}
  /\ utf8_decode (concat chunks) = Some (concat decoded).
Proof.
  intros H. split.
  - unfold bind. rewrite (print_feed_appends chunks decoded _ H).
    reflexivity.
  - now apply utf8_decode_concat.
Qed.

Lemma join_concatenates_decoded_chunks_witness :
  map utf8_decode hello_chunks = map Some hello_parts
  /\ ((PyPrintAccumulator.feed hello_chunks ;; PyPrintAccumulator.join)
        PyPrintAccumulator.init
      = Returned (concat hello_parts)
          {| PyPrintAccumulator.parts := hello_parts |}
      /\ utf8_decode (concat hello_chunks) = Some (concat hello_parts)).
Proof.
  split; [reflexivity |].
  apply (join_concatenates_decoded_chunks hello_chunks hello_parts).
  reflexivity.
Defined.

(** C1 fails as stated.  The concatenation of the chunks [C3] and [A9] is
    the UTF-8 encoding of U+00E9, but the callback decodes each chunk on its
    own: it raises on the first and appends nothing, neither chunk decodes
    alone, and [join] on the accumulator so left returns the empty string. *)
Lemma join_split_character_counterexample :
  utf8_decode (concat split_e_acute) = Some [233%N]
  /\ (PyPrintAccumulator.feed split_e_acute ;; PyPrintAccumulator.join)
       PyPrintAccumulator.init
     = Raised (runtime_error "Could not allocate string object!")
         PyPrintAccumulator.init
  /\ PyPrintAccumulator.getCallback [xa9] PyPrintAccumulator.init
     = Raised (runtime_error "Could not allocate string object!")
         PyPrintAccumulator.init
  /\ PyPrintAccumulator.join PyPrintAccumulator.init
     = Returned [] PyPrintAccumulator.init.
Proof. repeat split. Qed.

(** C8.  In every state of the accumulator, two calls of [join] in a row
    return the same string, the concatenation of the parts, and leave the
    accumulator as it was. *)
Theorem join_twice_same_result (acc : PyPrintAccumulator.t) :
  (first <- PyPrintAccumulator.join ;;
   second <- PyPrintAccumulator.join ;;
   ret (first, second)) acc
  = Returned (concat (PyPrintAccumulator.parts acc),
              concat (PyPrintAccumulator.parts acc)) acc.
Proof. reflexivity. Qed.

(** ** [PyFileAccumulator] *)

Lemma writes_app (tr tr' : list PyFileAccumulator.event) :
  PyFileAccumulator.writes (tr ++ tr')
  = PyFileAccumulator.writes tr ++ PyFileAccumulator.writes tr'.
Proof.
  induction tr as [|ev tr IH]; simpl; [reflexivity|].
  destruct ev; simpl; now rewrite IH.
Qed.

(** One invocation on a chunk that converts: the lock is taken and dropped,
    then [write] is called on the converted chunk, and the callback returns
    or raises as [write] does. *)
Lemma file_callback_outcome (Sink : Type) (accum : PyFileAccumulator.t Sink)
    (part : chunk) (arg : object) (w : PyFileAccumulator.world Sink) :
  PyFileAccumulator.write_argument (PyFileAccumulator.binary accum) part
  = Some arg ->
  PyFileAccumulator.getCallback accum part w
  = let tr := PyFileAccumulator.trace w
              ++ [PyFileAccumulator.gil_acquire;
                  PyFileAccumulator.gil_release;
                  PyFileAccumulator.py_write arg] in
    match PyFileAccumulator.pyWriteFunction accum arg
            (PyFileAccumulator.sink w) with
    | (None, s') =>
        Returned tt
          {| PyFileAccumulator.sink := s'; PyFileAccumulator.trace := tr |}
    | (Some e, s') =>
        Raised e
          {| PyFileAccumulator.sink := s'; PyFileAccumulator.trace := tr |}
    end.
Proof.
  unfold PyFileAccumulator.write_argument, PyFileAccumulator.getCallback.
  destruct (PyFileAccumulator.binary accum).
  - intros [= <-]. cbn.
    destruct (PyFileAccumulator.pyWriteFunction accum _ _) as [[e|] s'];
      cbn; now rewrite <- !app_assoc.
  - destruct (utf8_decode part) as [s|] eqn:E; [|discriminate].
    intros [= <-]. cbn. rewrite (pybind11_str_decoded part s E). cbn.
    destruct (PyFileAccumulator.pyWriteFunction accum _ _) as [[e|] s'];
      cbn; now rewrite <- !app_assoc.
Qed.

(** In text mode a chunk that is not well-formed UTF-8 makes the string
    constructor raise, after the lock was taken and dropped and before any
    call to [write]. *)
Lemma file_callback_malformed (Sink : Type) (accum : PyFileAccumulator.t Sink)
    (part : chunk) (w : PyFileAccumulator.world Sink) :
  PyFileAccumulator.binary accum = false ->
  utf8_decode part = None ->
  PyFileAccumulator.getCallback accum part w
  = Raised (runtime_error "Could not allocate string object!")
      {| PyFileAccumulator.sink := PyFileAccumulator.sink w;
         PyFileAccumulator.trace :=
           PyFileAccumulator.trace w
           ++ [PyFileAccumulator.gil_acquire;
               PyFileAccumulator.gil_release] |}.
Proof.
  intros Hb Hd. unfold PyFileAccumulator.getCallback. rewrite Hb. cbn.
  rewrite (pybind11_str_malformed part Hd). cbn.
  now rewrite <- app_assoc.
Qed.

Lemma file_callback_writes_once (Sink : Type)
    (accum : PyFileAccumulator.t Sink) (part : chunk) (arg : object)
    (w : PyFileAccumulator.world Sink) :
  PyFileAccumulator.write_argument (PyFileAccumulator.binary accum) part
  = Some arg ->
  exists w1,
    (PyFileAccumulator.getCallback accum part w = Returned tt w1
     \/ exists e, PyFileAccumulator.getCallback accum part w = Raised e w1)
    /\ PyFileAccumulator.writes (PyFileAccumulator.trace w1)
       = PyFileAccumulator.writes (PyFileAccumulator.trace w) ++ [arg].
Proof.
  intros H. rewrite (file_callback_outcome Sink accum part arg w H). cbv zeta.
  destruct (PyFileAccumulator.pyWriteFunction accum _ _) as [[e|] s'];
    eexists; (split; [ (left; reflexivity) || (right; eexists; reflexivity)
                     | cbn; now rewrite writes_app ]).
Qed.

Lemma file_feed_writes_in_order (Sink : Type)
    (accum : PyFileAccumulator.t Sink) (chunks : list chunk) :
  forall (args : list object) (w w' : PyFileAccumulator.world Sink),
    map (PyFileAccumulator.write_argument (PyFileAccumulator.binary accum))
      chunks = map Some args ->
    PyFileAccumulator.feed accum chunks w = Returned tt w' ->
    PyFileAccumulator.writes (PyFileAccumulator.trace w')
    = PyFileAccumulator.writes (PyFileAccumulator.trace w) ++ args.
Proof.
  induction chunks as [|c chunks IH]; intros [|a args] w w' Hargs Hrun;
    try discriminate; simpl in *.
  - injection Hrun as <-. now rewrite app_nil_r.
  - injection Hargs as Hc Hrest.
    unfold bind in Hrun.
    rewrite (file_callback_outcome Sink accum c a w Hc) in Hrun.
    cbv zeta in Hrun.
    destruct (PyFileAccumulator.pyWriteFunction accum _ _) as [[e|] s'];
      [discriminate|].
    rewrite (IH args _ w' Hrest Hrun). cbn.
    rewrite writes_app. cbn. now rewrite <- app_assoc.
Qed.

(** C5, as the code has it.  For a chunk that converts (every chunk in
    binary mode, every chunk that is well-formed UTF-8 in text mode) one
    invocation of the callback calls the sink's [write] exactly once, after
    all earlier calls, with the byte buffer of the chunk in binary mode and
    with its UTF-8 decoding in text mode, whether [write] returns or raises;
    and when a whole sequence of chunks is delivered, the calls to [write]
    are those of the chunks, one each, in the order of the invocations. *)
Theorem file_accumulator_forwards_chunks (Sink : Type)
    (accum : PyFileAccumulator.t Sink)
    (part : chunk) (arg : object) (w : PyFileAccumulator.world Sink)
    (chunks : list chunk) (args : list object)
    (w0 w' : PyFileAccumulator.world Sink) :
  PyFileAccumulator.write_argument (PyFileAccumulator.binary accum) part
  = Some arg ->
  map (PyFileAccumulator.write_argument (PyFileAccumulator.binary accum))
    chunks = map Some args ->
  PyFileAccumulator.feed accum chunks w0 = Returned tt w' ->
  (exists w1,
     (PyFileAccumulator.getCallback accum part w = Returned tt w1
      \/ exists e, PyFileAccumulator.getCallback accum part w = Raised e w1)
     /\ PyFileAccumulator.writes (PyFileAccumulator.trace w1)
        = PyFileAccumulator.writes (PyFileAccumulator.trace w) ++ [arg])
  /\ PyFileAccumulator.writes (PyFileAccumulator.trace w')
     = PyFileAccumulator.writes (PyFileAccumulator.trace w0) ++ args.
Proof.
  intros Hpart Hargs Hrun. split.
  - now apply file_callback_writes_once.
  - now apply (file_feed_writes_in_order Sink accum chunks).
Qed.

Lemma file_accumulator_forwards_chunks_witness :
  PyFileAccumulator.write_argument
    (PyFileAccumulator.binary binary_accum) deadbeef
  = Some (Bytes_ deadbeef)
  /\ map (PyFileAccumulator.write_argument
            (PyFileAccumulator.binary binary_accum)) [deadbeef; []; [x41]]
     = map Some [Bytes_ deadbeef; Bytes_ []; Bytes_ [x41]]
  /\ PyFileAccumulator.feed binary_accum [deadbeef; []; [x41]] fresh_world
     = Returned tt
         {| PyFileAccumulator.sink := deadbeef ++ [x41];
            PyFileAccumulator.trace :=
              [PyFileAccumulator.gil_acquire; PyFileAccumulator.gil_release;
               PyFileAccumulator.py_write (Bytes_ deadbeef);
               PyFileAccumulator.gil_acquire; PyFileAccumulator.gil_release;
               PyFileAccumulator.py_write (Bytes_ []);
               PyFileAccumulator.gil_acquire; PyFileAccumulator.gil_release;
               PyFileAccumulator.py_write (Bytes_ [x41])] |}
  /\ (exists w1,
        (PyFileAccumulator.getCallback binary_accum deadbeef fresh_world
         = Returned tt w1
         \/ exists e,
             PyFileAccumulator.getCallback binary_accum deadbeef fresh_world
             = Raised e w1)
        /\ PyFileAccumulator.writes (PyFileAccumulator.trace w1)
           = PyFileAccumulator.writes
               (PyFileAccumulator.trace (@fresh_world byte))
             ++ [Bytes_ deadbeef])
  /\ PyFileAccumulator.writes
       [PyFileAccumulator.gil_acquire; PyFileAccumulator.gil_release;
        PyFileAccumulator.py_write (Bytes_ deadbeef);
        PyFileAccumulator.gil_acquire; PyFileAccumulator.gil_release;
        PyFileAccumulator.py_write (Bytes_ []);
        PyFileAccumulator.gil_acquire; PyFileAccumulator.gil_release;
        PyFileAccumulator.py_write (Bytes_ [x41])]
     = PyFileAccumulator.writes (PyFileAccumulator.trace (@fresh_world byte))
       ++ [Bytes_ deadbeef; Bytes_ []; Bytes_ [x41]].
Proof.
  split; [reflexivity|]. split; [reflexivity|]. split; [reflexivity|].
  apply (file_accumulator_forwards_chunks (list byte) binary_accum
           deadbeef (Bytes_ deadbeef) fresh_world
           [deadbeef; []; [x41]] [Bytes_ deadbeef; Bytes_ []; Bytes_ [x41]]
           fresh_world
           {| PyFileAccumulator.sink := deadbeef ++ [x41];
              PyFileAccumulator.trace :=
                [PyFileAccumulator.gil_acquire; PyFileAccumulator.gil_release;
                 PyFileAccumulator.py_write (Bytes_ deadbeef);
                 PyFileAccumulator.gil_acquire; PyFileAccumulator.gil_release;
                 PyFileAccumulator.py_write (Bytes_ []);
                 PyFileAccumulator.gil_acquire; PyFileAccumulator.gil_release;
                 PyFileAccumulator.py_write (Bytes_ [x41])] |});
    reflexivity.
Defined.

(** C5 fails as stated.  In text mode the callback invoked on the chunk
    [FF], which is not UTF-8, raises from the string constructor and makes
    no call to [write] at all. *)
Lemma file_accumulator_text_malformed_counterexample :
  utf8_decode [xff] = None
  /\ PyFileAccumulator.getCallback text_accum [xff] fresh_world
     = Raised (runtime_error "Could not allocate string object!")
         {| PyFileAccumulator.sink := [];
            PyFileAccumulator.trace :=
              [PyFileAccumulator.gil_acquire;
               PyFileAccumulator.gil_release] |}
  /\ PyFileAccumulator.writes
       [PyFileAccumulator.gil_acquire; PyFileAccumulator.gil_release] = [].
Proof. repeat split. Qed.

(** C4, what the code does.  Invoked by a thread that does not hold the
    interpreter lock, the callback takes the lock and drops it again before
    it converts the chunk and calls [write]: the call to [write] is entered
    with the lock held zero times. *)
Theorem file_callback_drops_gil_before_write :
  PyFileAccumulator.getCallback binary_accum deadbeef fresh_world
  = Returned tt
      {| PyFileAccumulator.sink := deadbeef;
         PyFileAccumulator.trace :=
           [PyFileAccumulator.gil_acquire; PyFileAccumulator.gil_release;
            PyFileAccumulator.py_write (Bytes_ deadbeef)] |}
  /\ PyFileAccumulator.depth_at_writes 0
       [PyFileAccumulator.gil_acquire; PyFileAccumulator.gil_release;
        PyFileAccumulator.py_write (Bytes_ deadbeef)] = [0].
Proof. split; reflexivity. Qed.

(** ** [PySinglePartStringAccumulator] *)

Lemma single_callback_first (part : chunk) (s : str) (v : str_holder) :
  utf8_decode part = Some s ->
  PySinglePartStringAccumulator.getCallback part
    {| PySinglePartStringAccumulator.value := v;
       PySinglePartStringAccumulator.invoked := false |}
  = Returned tt
      {| PySinglePartStringAccumulator.value := Some s;
         PySinglePartStringAccumulator.invoked := true |}.
Proof.
  intros H. unfold PySinglePartStringAccumulator.getCallback. cbn.
  rewrite (pybind11_str_decoded part s H). reflexivity.
Qed.

(** Once [invoked] is set, every further invocation fails the assertion,
    whatever the chunk. *)
Lemma single_callback_again (part : chunk)
    (accum : PySinglePartStringAccumulator.t) :
  PySinglePartStringAccumulator.invoked accum = true ->
  PySinglePartStringAccumulator.getCallback part accum
  = Aborted "PySinglePartStringAccumulator called back multiple times".
Proof.
  intros H. unfold PySinglePartStringAccumulator.getCallback. cbn.
  rewrite H. reflexivity.
Qed.

(** C2.  One invocation of the callback followed by [takeValue] returns the
    UTF-8 decoding of the chunk; [takeValue] with no invocation before it
    fails its assertion, and so does a second invocation of the callback:
    neither returns a value. *)
Theorem single_part_protocol (part part' : chunk) (s : str) :
  utf8_decode part = Some s ->
  (PySinglePartStringAccumulator.getCallback part ;;
   PySinglePartStringAccumulator.takeValue)
    PySinglePartStringAccumulator.init
  = Returned (Some s)
      {| PySinglePartStringAccumulator.value := None;
         PySinglePartStringAccumulator.invoked := true |}
  /\ PySinglePartStringAccumulator.takeValue
       PySinglePartStringAccumulator.init
     = Aborted "PySinglePartStringAccumulator not called back"
  /\ (PySinglePartStringAccumulator.getCallback part ;;
      PySinglePartStringAccumulator.getCallback part')
       PySinglePartStringAccumulator.init
     = Aborted "PySinglePartStringAccumulator called back multiple times".
Proof.
  intros H. unfold bind, PySinglePartStringAccumulator.init.
  rewrite (single_callback_first part s str_default H).
  split; [reflexivity|]. split; [reflexivity|].
  now apply single_callback_again.
Qed.

Lemma single_part_protocol_witness :
  utf8_decode [x48; x69] = Some [72; 105]%N
  /\ ((PySinglePartStringAccumulator.getCallback [x48; x69] ;;
       PySinglePartStringAccumulator.takeValue)
        PySinglePartStringAccumulator.init
      = Returned (Some [72; 105]%N)
          {| PySinglePartStringAccumulator.value := None;
             PySinglePartStringAccumulator.invoked := true |}
      /\ PySinglePartStringAccumulator.takeValue
           PySinglePartStringAccumulator.init
         = Aborted "PySinglePartStringAccumulator not called back"
      /\ (PySinglePartStringAccumulator.getCallback [x48; x69] ;;
          PySinglePartStringAccumulator.getCallback [x21])
           PySinglePartStringAccumulator.init
         = Aborted "PySinglePartStringAccumulator called back multiple times").
Proof.
  split; [reflexivity|].
  apply (single_part_protocol [x48; x69] [x21] [72; 105]%N).
  reflexivity.
Defined.

(** C10.  A single invocation with a zero-length chunk passes the assertion
    and sets [invoked]; [takeValue] after it returns the empty string. *)
Theorem single_part_empty_chunk :
  PySinglePartStringAccumulator.getCallback []
    PySinglePartStringAccumulator.init
  = Returned tt
      {| PySinglePartStringAccumulator.value := Some [];
         PySinglePartStringAccumulator.invoked := true |}
  /\ (PySinglePartStringAccumulator.getCallback [] ;;
      PySinglePartStringAccumulator.takeValue)
       PySinglePartStringAccumulator.init
     = Returned (Some [])
         {| PySinglePartStringAccumulator.value := None;
            PySinglePartStringAccumulator.invoked := true |}.
Proof. split; reflexivity. Qed.

(** ** [Defaulting] *)

(** C9.  A default-constructed wrapper holds the null pointer: [get] and
    [operator->] both return it, and on every wrapper the two accessors
    return the same pointer. *)
Theorem defaulting_accessors_agree :
  Defaulting.get Defaulting.default = Defaulting.nullptr
  /\ Defaulting.arrow Defaulting.default = Defaulting.nullptr
  /\ forall d : Defaulting.t, Defaulting.get d = Defaulting.arrow d.
Proof. repeat split. Qed.

(** ** [MlirDefaultingCaster] *)

Section Caster.

Variable G : Type.
Variable resolve : G -> (exn + Defaulting.address) * G.
Variable pybind11_cast : object -> exn + Defaulting.address.

(** On [None], [load] is the resolver: its result and its effect on the
    state it consults are those of [load], and the cast is not consulted. *)
Lemma load_none_is_resolve (convert : bool)
    (c : MlirDefaultingCaster.t) (g : G) :
  MlirDefaultingCaster.load resolve pybind11_cast None_ convert (c, g)
  = match resolve g with
    | (inl e, g') => Raised e (c, g')
    | (inr r, g') =>
        Returned true
          ({| MlirDefaultingCaster.value := Defaulting.make r |}, g')
    end.
Proof.
  unfold MlirDefaultingCaster.load, bind,
    MlirDefaultingCaster.call_resolve. cbn.
  destruct (resolve g) as [[e|r] g']; reflexivity.
Qed.

(** On anything else, [load] is the cast, with its exception turned into
    the result [false]; the resolver is not consulted. *)
Lemma load_object_is_cast (src : object) (convert : bool)
    (c : MlirDefaultingCaster.t) (g : G) :
  is_none src = false ->
  MlirDefaultingCaster.load resolve pybind11_cast src convert (c, g)
  = match pybind11_cast src with
    | inl e => Returned false (c, g)
    | inr r =>
        Returned true
          ({| MlirDefaultingCaster.value := Defaulting.make r |}, g)
    end.
Proof.
  intros H.
  unfold MlirDefaultingCaster.load, try_catch, bind. rewrite H.
  destruct (pybind11_cast src) as [e|r]; reflexivity.
Qed.

End Caster.

(** C3.  Converting [None] runs the resolver, and when the resolver raises,
    [load] leaves by that very exception, in the state the resolver left:
    it returns neither [true] nor [false], and nothing that is sequenced
    after the conversion (the native call that would take the converted
    argument) is run. *)
Theorem load_none_propagates_resolve_error (G : Type)
    (resolve : G -> (exn + Defaulting.address) * G)
    (pybind11_cast : object -> exn + Defaulting.address)
    (convert : bool) (c : MlirDefaultingCaster.t) (g g' : G) (e : exn) :
  resolve g = (inl e, g') ->
  MlirDefaultingCaster.load resolve pybind11_cast None_ convert (c, g)
  = Raised e (c, g')
  /\ forall (B : Type) (native_call : bool -> M (MlirDefaultingCaster.t * G) B),
       (ok <- MlirDefaultingCaster.load resolve pybind11_cast None_ convert ;;
        native_call ok) (c, g)
       = Raised e (c, g').
Proof.
  intros H.
  assert (L : MlirDefaultingCaster.load resolve pybind11_cast None_ convert
                (c, g) = Raised e (c, g')).
  { rewrite load_none_is_resolve, H. reflexivity. }
  split; [exact L|].
  intros B native_call. unfold bind. rewrite L. reflexivity.
Qed.

Lemma load_none_propagates_resolve_error_witness :
  Context_resolve None
  = (inl (error_already_set "RuntimeError" "no current default"), None)
  /\ (MlirDefaultingCaster.load Context_resolve Context_cast None_ false
        (scratch_caster, None)
      = Raised (error_already_set "RuntimeError" "no current default")
          (scratch_caster, None)
      /\ forall (B : Type)
           (native_call
            : bool -> M (MlirDefaultingCaster.t * option Defaulting.address) B),
           (ok <- MlirDefaultingCaster.load Context_resolve Context_cast
                    None_ false ;;
            native_call ok) (scratch_caster, None)
           = Raised (error_already_set "RuntimeError" "no current default")
               (scratch_caster, None)).
Proof.
  split; [reflexivity|].
  apply (load_none_propagates_resolve_error
           (option Defaulting.address) Context_resolve Context_cast false
           scratch_caster None None
           (error_already_set "RuntimeError" "no current default")).
  reflexivity.
Defined.

(** C6.  For a value that is not [None] and that the cast to the referent
    type rejects, [load] catches the exception of the cast and returns
    [false]; it raises nothing and leaves the caster and the resolver's
    state untouched. *)
Theorem load_mismatch_returns_false (G : Type)
    (resolve : G -> (exn + Defaulting.address) * G)
    (pybind11_cast : object -> exn + Defaulting.address)
    (src : object) (convert : bool)
    (c : MlirDefaultingCaster.t) (g : G) (e : exn) :
  is_none src = false ->
  pybind11_cast src = inl e ->
  MlirDefaultingCaster.load resolve pybind11_cast src convert (c, g)
  = Returned false (c, g).
Proof.
  intros Hn Hc. rewrite (load_object_is_cast G resolve pybind11_cast
                           src convert c g Hn), Hc.
  reflexivity.
Qed.

Lemma load_mismatch_returns_false_witness :
  is_none (Str_ [72; 105]%N) = false
  /\ Context_cast (Str_ [72; 105]%N)
     = inl (cast_error "Unable to cast Python instance to C++ type")
  /\ MlirDefaultingCaster.load Context_resolve Context_cast
       (Str_ [72; 105]%N) false (scratch_caster, Some 4096%N)
     = Returned false (scratch_caster, Some 4096%N).
Proof.
  split; [reflexivity|]. split; [reflexivity|].
  apply (load_mismatch_returns_false
           (option Defaulting.address) Context_resolve Context_cast
           (Str_ [72; 105]%N) false scratch_caster (Some 4096%N)
           (cast_error "Unable to cast Python instance to C++ type"));
    reflexivity.
Defined.

(** C7.  A wrapper constructed from a referent returns, from [get], a
    pointer to that referent.  [load] on an object that holds a live
    referent returns [true] and leaves in [value] a wrapper whose [get] is
    the referent's address, in every state of the resolver, also where no
    default exists: the resolver is not consulted.  [load] on [None], when
    the resolver succeeds, returns [true] and leaves a wrapper whose [get]
    points to the resolver's result. *)
Theorem load_binds_referent (G : Type)
    (resolve : G -> (exn + Defaulting.address) * G)
    (pybind11_cast : object -> exn + Defaulting.address)
    (convert : bool) (c : MlirDefaultingCaster.t) :
  (forall a : Defaulting.address,
      Defaulting.get (Defaulting.make a) = Some a
      /\ Defaulting.get (Defaulting.make a) <> Defaulting.nullptr)
  /\ (forall (src : object) (g : G) (r : Defaulting.address),
        is_none src = false ->
        pybind11_cast src = inr r ->
        exists c1,
          MlirDefaultingCaster.load resolve pybind11_cast src convert (c, g)
          = Returned true (c1, g)
          /\ Defaulting.get (MlirDefaultingCaster.value c1) = Some r)
  /\ (forall (g g' : G) (d : Defaulting.address),
        resolve g = (inr d, g') ->
        exists c2,
          MlirDefaultingCaster.load resolve pybind11_cast None_ convert (c, g)
          = Returned true (c2, g')
          /\ Defaulting.get (MlirDefaultingCaster.value c2) = Some d).
Proof.
  split; [|split].
  - intros a. split; [reflexivity | discriminate].
  - intros src g r Hn Hc.
    rewrite (load_object_is_cast G resolve pybind11_cast src convert c g Hn),
      Hc.
    eexists. split; reflexivity.
  - intros g g' d Hr.
    rewrite load_none_is_resolve, Hr.
    eexists. split; reflexivity.
Qed.

(** An explicit referent is bound where the resolver has no default to
    give; [None] is bound where it has one. *)
Lemma load_binds_referent_witness :
  (is_none (Instance "Context" 8192) = false
   /\ Context_cast (Instance "Context" 8192) = inr 8192%N
   /\ Context_resolve None
      = (inl (error_already_set "RuntimeError" "no current default"), None)
   /\ exists c1,
        MlirDefaultingCaster.load Context_resolve Context_cast
          (Instance "Context" 8192) false (scratch_caster, None)
        = Returned true (c1, None)
        /\ Defaulting.get (MlirDefaultingCaster.value c1) = Some 8192%N)
  /\ (Context_resolve (Some 4096%N) = (inr 4096%N, Some 4096%N)
      /\ exists c2,
           MlirDefaultingCaster.load Context_resolve Context_cast
             None_ false (scratch_caster, Some 4096%N)
           = Returned true (c2, Some 4096%N)
           /\ Defaulting.get (MlirDefaultingCaster.value c2) = Some 4096%N).
Proof.
  destruct (load_binds_referent
              (option Defaulting.address) Context_resolve Context_cast
              false scratch_caster) as [_ [explicit resolved]].
  split.
  - split; [reflexivity|]. split; [reflexivity|]. split; [reflexivity|].
    apply (explicit (Instance "Context" 8192) None 8192%N); reflexivity.
  - split; [reflexivity|].
    apply (resolved (Some 4096%N) (Some 4096%N) 4096%N); reflexivity.
Defined.

(** ** The decoder and the accumulators on known inputs *)

(** U+00E9, U+20AC and U+1F600 in two, three and four bytes. *)
Example utf8_decode_multibyte :
  utf8_decode [xc3; xa9; xe2; x82; xac; xf0; x9f; x98; x80]
  = Some [233; 8364; 128512]%N.
Proof. reflexivity. Qed.

(** Rejected: a truncated sequence, a stray continuation byte, an over-long
    form, a surrogate, and a code point above U+10FFFF. *)
Example utf8_decode_rejects :
  map utf8_decode
    [[xe2; x82]; [x80]; [xc0; x80]; [xed; xa0; x80]; [xf4; x90; x80; x80]]
  = [None; None; None; None; None].
Proof. reflexivity. Qed.

(** ["He"], ["llo"], an empty chunk and [" world"] join to
    ["Hello world"]. *)
Example join_hello_world :
  (PyPrintAccumulator.feed hello_chunks ;; PyPrintAccumulator.join)
    PyPrintAccumulator.init
  = Returned [72; 101; 108; 108; 111; 32; 119; 111; 114; 108; 100]%N
      {| PyPrintAccumulator.parts := hello_parts |}.
Proof. reflexivity. Qed.

(** Four raw bytes written in binary mode reach the byte sink unchanged, in
    one call. *)
Example binary_sink_receives_bytes :
  PyFileAccumulator.feed binary_accum [deadbeef] fresh_world
  = Returned tt
      {| PyFileAccumulator.sink := [xde; xad; xbe; xef];
         PyFileAccumulator.trace :=
           [PyFileAccumulator.gil_acquire; PyFileAccumulator.gil_release;
            PyFileAccumulator.py_write (Bytes_ [xde; xad; xbe; xef])] |}.
Proof. reflexivity. Qed.

(** A file object without a [write] attribute is refused at construction. *)
Example file_accumulator_needs_write :
  PyFileAccumulator.make
    {| PyFileAccumulator.attr_write := @None (PyFileAccumulator.py_method unit) |}
    true
  = inl (error_already_set "AttributeError" "write").
Proof. reflexivity. Qed.

(** After [takeValue] the member is null: a second [takeValue] passes the
    assertion and hands out the null holder. *)
Example take_value_twice :
  (PySinglePartStringAccumulator.getCallback [x48; x69] ;;
   PySinglePartStringAccumulator.takeValue ;;
   PySinglePartStringAccumulator.takeValue)
    PySinglePartStringAccumulator.init
  = Returned None
      {| PySinglePartStringAccumulator.value := None;
         PySinglePartStringAccumulator.invoked := true |}.
Proof. reflexivity. Qed.

(** * Further properties of the accumulators and the caster *)

(** ** [PyPrintAccumulator] *)

Lemma print_feed_app (chunks chunks' : list chunk)
    (acc : PyPrintAccumulator.t) :
  PyPrintAccumulator.feed (chunks ++ chunks') acc
  = (PyPrintAccumulator.feed chunks ;; PyPrintAccumulator.feed chunks') acc.
Proof.
  revert acc. induction chunks as [|c chunks IH]; intros acc; simpl.
  - reflexivity.
  - unfold bind.
    destruct (PyPrintAccumulator.getCallback c acc) as [[] acc1|e acc1|msg];
      try reflexivity.
    rewrite IH. reflexivity.
Qed.

Lemma utf8_decode_ascii (part : chunk) :
  ascii_only part = true ->
  utf8_decode part = Some (ascii_code_points part).
Proof.
  unfold utf8_decode.
  induction part as [|b part IH]; simpl; [reflexivity|].
  intros H. apply andb_true_iff in H as [Hb Hrest].
  unfold lead. unfold is_ascii in Hb. rewrite Hb.
  rewrite (IH Hrest). reflexivity.
Qed.

Lemma utf8_decode_ascii_chunks (chunks : list chunk) :
  forallb ascii_only chunks = true ->
  map utf8_decode chunks = map Some (map ascii_code_points chunks).
Proof.
  induction chunks as [|c chunks IH]; simpl; [reflexivity|].
  intros H. apply andb_true_iff in H as [Hc Hrest].
  now rewrite (utf8_decode_ascii c Hc), (IH Hrest).
Qed.

(** X1.  On a chunk that is not well-formed UTF-8 the callback raises
    instead of returning, and it leaves the accumulator exactly as it was:
    no part is appended. *)
Theorem print_callback_malformed_keeps_parts (part : chunk)
    (acc : PyPrintAccumulator.t) :
  utf8_decode part = None ->
  PyPrintAccumulator.getCallback part acc
  = Raised (runtime_error "Could not allocate string object!") acc
  /\ (forall acc', PyPrintAccumulator.getCallback part acc <> Returned tt acc').
Proof.
  intros H. rewrite (print_callback_raises part acc H).
  split; [reflexivity | discriminate].
Qed.

Lemma print_callback_malformed_keeps_parts_witness :
  utf8_decode [xe2; x82] = None
  /\ (PyPrintAccumulator.getCallback [xe2; x82]
        {| PyPrintAccumulator.parts := hello_parts |}
      = Raised (runtime_error "Could not allocate string object!")
          {| PyPrintAccumulator.parts := hello_parts |}
      /\ (forall acc',
            PyPrintAccumulator.getCallback [xe2; x82]
              {| PyPrintAccumulator.parts := hello_parts |}
            <> Returned tt acc')).
Proof.
  split; [reflexivity|].
  apply (print_callback_malformed_keeps_parts [xe2; x82]
           {| PyPrintAccumulator.parts := hello_parts |}).
  reflexivity.
Defined.

(** X2.  From any state, a callback on a well-formed chunk followed by
    [join] returns what [join] returned before the callback, followed by
    the decoding of the chunk. *)
Theorem print_join_extends (part : chunk) (s : str)
    (acc : PyPrintAccumulator.t) (before : str) :
  utf8_decode part = Some s ->
  PyPrintAccumulator.join acc = Returned before acc ->
  (PyPrintAccumulator.getCallback part ;; PyPrintAccumulator.join) acc
  = Returned (before ++ s)
      {| PyPrintAccumulator.parts := PyPrintAccumulator.parts acc ++ [s] |}.
Proof.
  intros H J. unfold bind.
  rewrite (print_callback_appends part s acc H).
  unfold PyPrintAccumulator.join, bind, get_state, ret, str_join_empty in *.
  injection J as <-. cbn.
  rewrite concat_app. cbn. now rewrite app_nil_r.
Qed.

Lemma print_join_extends_witness :
  utf8_decode [x21] = Some [33%N]
  /\ PyPrintAccumulator.join {| PyPrintAccumulator.parts := hello_parts |}
     = Returned [72; 101; 108; 108; 111; 32; 119; 111; 114; 108; 100]%N
         {| PyPrintAccumulator.parts := hello_parts |}
  /\ (PyPrintAccumulator.getCallback [x21] ;; PyPrintAccumulator.join)
       {| PyPrintAccumulator.parts := hello_parts |}
     = Returned
         ([72; 101; 108; 108; 111; 32; 119; 111; 114; 108; 100]%N ++ [33%N])
         {| PyPrintAccumulator.parts := hello_parts ++ [[33%N]] |}.
Proof.
  split; [reflexivity|]. split; [reflexivity|].
  apply (print_join_extends [x21] [33%N]
           {| PyPrintAccumulator.parts := hello_parts |}
           [72; 101; 108; 108; 111; 32; 119; 111; 114; 108; 100]%N);
    reflexivity.
Defined.

(** X3.  Chunks of ASCII never make the callback raise, however the bytes
    are cut into chunks: feeding them and joining returns one code point
    per byte of the concatenated chunks, with the byte's value. *)
Theorem print_ascii_chunks_join (chunks : list chunk) :
  forallb ascii_only chunks = true ->
  (PyPrintAccumulator.feed chunks ;; PyPrintAccumulator.join)
    PyPrintAccumulator.init
  = Returned (ascii_code_points (concat chunks))
      {| PyPrintAccumulator.parts := map ascii_code_points chunks |}.
Proof.
  intros H. unfold bind.
  rewrite (print_feed_appends chunks (map ascii_code_points chunks)
             PyPrintAccumulator.init (utf8_decode_ascii_chunks chunks H)).
  cbn. unfold str_join_empty, ascii_code_points.
  now rewrite concat_map.
Qed.

Lemma print_ascii_chunks_join_witness :
  forallb ascii_only hello_chunks = true
  /\ (PyPrintAccumulator.feed hello_chunks ;; PyPrintAccumulator.join)
       PyPrintAccumulator.init
     = Returned (ascii_code_points (concat hello_chunks))
         {| PyPrintAccumulator.parts := map ascii_code_points hello_chunks |}.
Proof.
  split; [reflexivity|].
  apply (print_ascii_chunks_join hello_chunks). reflexivity.
Defined.

(** X4.  The joined string depends on the bytes only, not on where they
    were cut: two sequences of chunks with the same concatenation, each
    chunk well-formed on its own, join to the same string. *)
Theorem print_join_independent_of_chunking
    (chunks chunks' : list chunk) (decoded decoded' : list str) :
  map utf8_decode chunks = map Some decoded ->
  map utf8_decode chunks' = map Some decoded' ->
  concat chunks = concat chunks' ->
  exists joined,
    (PyPrintAccumulator.feed chunks ;; PyPrintAccumulator.join)
      PyPrintAccumulator.init
    = Returned joined {| PyPrintAccumulator.parts := decoded |}
    /\ (PyPrintAccumulator.feed chunks' ;; PyPrintAccumulator.join)
         PyPrintAccumulator.init
       = Returned joined {| PyPrintAccumulator.parts := decoded' |}.
Proof.
  intros H H' E. exists (concat decoded).
  assert (J : concat decoded' = concat decoded).
  { pose proof (utf8_decode_concat chunks decoded H) as D.
    pose proof (utf8_decode_concat chunks' decoded' H') as D'.
    rewrite E in D. rewrite D in D'. now injection D'. }
  unfold bind.
  rewrite (print_feed_appends chunks decoded _ H).
  rewrite (print_feed_appends chunks' decoded' _ H').
  cbn. unfold str_join_empty. rewrite J. split; reflexivity.
Qed.

Lemma print_join_independent_of_chunking_witness :
  map utf8_decode [[x48; xc3; xa9]; [x21]]
  = map Some [[72; 233]; [33]]%N
  /\ map utf8_decode [[x48]; []; [xc3; xa9; x21]]
     = map Some [[72]; []; [233; 33]]%N
  /\ concat [[x48; xc3; xa9]; [x21]] = concat [[x48]; []; [xc3; xa9; x21]]
  /\ exists joined,
       (PyPrintAccumulator.feed [[x48; xc3; xa9]; [x21]] ;;
        PyPrintAccumulator.join) PyPrintAccumulator.init
       = Returned joined
           {| PyPrintAccumulator.parts := [[72; 233]; [33]]%N |}
       /\ (PyPrintAccumulator.feed [[x48]; []; [xc3; xa9; x21]] ;;
           PyPrintAccumulator.join) PyPrintAccumulator.init
          = Returned joined
              {| PyPrintAccumulator.parts := [[72]; []; [233; 33]]%N |}.
Proof.
  split; [reflexivity|]. split; [reflexivity|]. split; [reflexivity|].
  apply (print_join_independent_of_chunking
           [[x48; xc3; xa9]; [x21]] [[x48]; []; [xc3; xa9; x21]]
           [[72; 233]; [33]]%N [[72]; []; [233; 33]]%N);
    reflexivity.
Defined.

(** X5.  When a chunk in the middle of a delivery is not well-formed, the
    delivery ends there with the exception: the accumulator keeps the parts
    of the chunks before it, and none of the chunks after it is appended. *)
Theorem print_feed_stops_at_malformed
    (before : list chunk) (decoded : list str) (bad : chunk)
    (after : list chunk) (acc : PyPrintAccumulator.t) :
  map utf8_decode before = map Some decoded ->
  utf8_decode bad = None ->
  PyPrintAccumulator.feed (before ++ bad :: after) acc
  = Raised (runtime_error "Could not allocate string object!")
      {| PyPrintAccumulator.parts := PyPrintAccumulator.parts acc ++ decoded |}.
Proof.
  intros H B. rewrite print_feed_app. unfold bind.
  rewrite (print_feed_appends before decoded acc H). simpl. unfold bind.
  rewrite (print_callback_raises bad _ B). reflexivity.
Qed.

Lemma print_feed_stops_at_malformed_witness :
  map utf8_decode [[x48; x65]] = map Some [[72; 101]%N]
  /\ utf8_decode [xc3] = None
  /\ PyPrintAccumulator.feed ([[x48; x65]] ++ [xc3] :: [[xa9]; [x21]])
       PyPrintAccumulator.init
     = Raised (runtime_error "Could not allocate string object!")
         {| PyPrintAccumulator.parts :=
              PyPrintAccumulator.parts PyPrintAccumulator.init
              ++ [[72; 101]%N] |}.
Proof.
  split; [reflexivity|]. split; [reflexivity|].
  apply (print_feed_stops_at_malformed
           [[x48; x65]] [[72; 101]%N] [xc3] [[xa9]; [x21]]
           PyPrintAccumulator.init);
    reflexivity.
Defined.

(** ** [PyFileAccumulator] *)

Lemma gil_depth_app (tr tr' : list PyFileAccumulator.event) :
  forall depth : nat,
    gil_depth depth (tr ++ tr') = gil_depth (gil_depth depth tr) tr'.
Proof.
  induction tr as [|ev tr IH]; intros depth; simpl; [reflexivity|].
  destruct ev; apply IH.
Qed.

(** X6.  When the sink's [write] raises, the callback leaves by that same
    exception; [write] was called once, with the converted chunk, and the
    sink is in the state [write] left it in. *)
Theorem file_callback_write_error_propagates (Sink : Type)
    (accum : PyFileAccumulator.t Sink) (part : chunk) (arg : object)
    (w : PyFileAccumulator.world Sink) (e : exn) (s' : Sink) :
  PyFileAccumulator.write_argument (PyFileAccumulator.binary accum) part
  = Some arg ->
  PyFileAccumulator.pyWriteFunction accum arg (PyFileAccumulator.sink w)
  = (Some e, s') ->
  exists w',
    PyFileAccumulator.getCallback accum part w = Raised e w'
    /\ PyFileAccumulator.sink w' = s'
    /\ PyFileAccumulator.writes (PyFileAccumulator.trace w')
       = PyFileAccumulator.writes (PyFileAccumulator.trace w) ++ [arg].
Proof.
  intros Ha Hw.
  rewrite (file_callback_outcome Sink accum part arg w Ha). cbv zeta.
  rewrite Hw. eexists. split; [reflexivity|]. split; [reflexivity|].
  cbn. now rewrite writes_app.
Qed.

Lemma file_callback_write_error_propagates_witness :
  PyFileAccumulator.write_argument
    (PyFileAccumulator.binary closed_accum) deadbeef
  = Some (Bytes_ deadbeef)
  /\ PyFileAccumulator.pyWriteFunction closed_accum (Bytes_ deadbeef)
       (PyFileAccumulator.sink closed_world)
     = (Some (error_already_set "ValueError" "I/O operation on closed file"),
        tt)
  /\ exists w',
       PyFileAccumulator.getCallback closed_accum deadbeef closed_world
       = Raised (error_already_set "ValueError" "I/O operation on closed file")
           w'
       /\ PyFileAccumulator.sink w' = tt
       /\ PyFileAccumulator.writes (PyFileAccumulator.trace w')
          = PyFileAccumulator.writes (PyFileAccumulator.trace closed_world)
            ++ [Bytes_ deadbeef].
Proof.
  split; [reflexivity|]. split; [reflexivity|].
  apply (file_callback_write_error_propagates unit closed_accum deadbeef
           (Bytes_ deadbeef) closed_world
           (error_already_set "ValueError" "I/O operation on closed file")
           tt);
    reflexivity.
Defined.

Lemma depth_at_writes_app (tr tr' : list PyFileAccumulator.event) :
  forall depth : nat,
    PyFileAccumulator.depth_at_writes depth (tr ++ tr')
    = PyFileAccumulator.depth_at_writes depth tr
      ++ PyFileAccumulator.depth_at_writes (gil_depth depth tr) tr'.
Proof.
  induction tr as [|ev tr IH]; intros depth; simpl; [reflexivity|].
  destruct ev; simpl; now rewrite IH.
Qed.

(** X7.  Invoked by a thread that already holds the interpreter lock, the
    callback returns or raises with the thread holding the lock as many
    times as on entry, whatever the chunk, the mode and the sink; and if it
    calls [write], it does so once, with the lock held as on entry. *)
Theorem file_callback_gil_balanced (Sink : Type)
    (accum : PyFileAccumulator.t Sink) (part : chunk)
    (w : PyFileAccumulator.world Sink) (depth : nat) :
  0 < gil_depth depth (PyFileAccumulator.trace w) ->
  exists w' held,
    (PyFileAccumulator.getCallback accum part w = Returned tt w'
     \/ exists e, PyFileAccumulator.getCallback accum part w = Raised e w')
    /\ gil_depth depth (PyFileAccumulator.trace w')
       = gil_depth depth (PyFileAccumulator.trace w)
    /\ PyFileAccumulator.depth_at_writes depth (PyFileAccumulator.trace w')
       = PyFileAccumulator.depth_at_writes depth (PyFileAccumulator.trace w)
         ++ held
    /\ (held = [] \/ held = [gil_depth depth (PyFileAccumulator.trace w)])
    /\ Forall (fun d => 0 < d) held.
Proof.
  intros Held.
  destruct (PyFileAccumulator.write_argument
              (PyFileAccumulator.binary accum) part) as [arg|] eqn:A.
  - rewrite (file_callback_outcome Sink accum part arg w A). cbv zeta.
    exists (match PyFileAccumulator.pyWriteFunction accum arg
                    (PyFileAccumulator.sink w) with
            | (_, s') =>
                {| PyFileAccumulator.sink := s';
                   PyFileAccumulator.trace :=
                     PyFileAccumulator.trace w
                     ++ [PyFileAccumulator.gil_acquire;
                         PyFileAccumulator.gil_release;
                         PyFileAccumulator.py_write arg] |}
            end).
    exists [gil_depth depth (PyFileAccumulator.trace w)].
    destruct (PyFileAccumulator.pyWriteFunction accum _ _) as [[e|] s'];
      (split; [ (left; reflexivity) || (right; eexists; reflexivity) |]);
      cbn; rewrite gil_depth_app, depth_at_writes_app; cbn;
      (split; [reflexivity|]); (split; [reflexivity|]);
      (split; [now right|]); now repeat constructor.
  - unfold PyFileAccumulator.write_argument in A.
    destruct (PyFileAccumulator.binary accum) eqn:B; [discriminate|].
    destruct (utf8_decode part) eqn:D; [discriminate|].
    rewrite (file_callback_malformed Sink accum part w B D).
    eexists. exists []. split; [right; eexists; reflexivity|].
    cbn. rewrite gil_depth_app, depth_at_writes_app. cbn.
    rewrite app_nil_r.
    split; [reflexivity|]. split; [reflexivity|].
    split; [now left | constructor].
Qed.

Lemma file_callback_gil_balanced_witness :
  0 < gil_depth 1 (PyFileAccumulator.trace (@fresh_world byte))
  /\ exists w' held,
       (PyFileAccumulator.getCallback binary_accum deadbeef fresh_world
        = Returned tt w'
        \/ exists e,
            PyFileAccumulator.getCallback binary_accum deadbeef fresh_world
            = Raised e w')
       /\ gil_depth 1 (PyFileAccumulator.trace w')
          = gil_depth 1 (PyFileAccumulator.trace (@fresh_world byte))
       /\ PyFileAccumulator.depth_at_writes 1 (PyFileAccumulator.trace w')
          = PyFileAccumulator.depth_at_writes 1
              (PyFileAccumulator.trace (@fresh_world byte))
            ++ held
       /\ (held = []
           \/ held
              = [gil_depth 1 (PyFileAccumulator.trace (@fresh_world byte))])
       /\ Forall (fun d => 0 < d) held.
Proof.
  split; [repeat constructor|].
  apply (file_callback_gil_balanced (list byte) binary_accum deadbeef
           fresh_world 1).
  repeat constructor.
Defined.

(** X8.  In text mode, a chunk that is not well-formed UTF-8 makes the
    callback raise before it reaches the sink: [write] is not called and
    the sink is unchanged. *)
Theorem file_callback_text_malformed_skips_write (Sink : Type)
    (accum : PyFileAccumulator.t Sink) (part : chunk)
    (w : PyFileAccumulator.world Sink) :
  PyFileAccumulator.binary accum = false ->
  utf8_decode part = None ->
  exists w',
    PyFileAccumulator.getCallback accum part w
    = Raised (runtime_error "Could not allocate string object!") w'
    /\ PyFileAccumulator.sink w' = PyFileAccumulator.sink w
    /\ PyFileAccumulator.writes (PyFileAccumulator.trace w')
       = PyFileAccumulator.writes (PyFileAccumulator.trace w).
Proof.
  intros B D. rewrite (file_callback_malformed Sink accum part w B D).
  eexists. split; [reflexivity|]. split; [reflexivity|].
  cbn. rewrite writes_app. cbn. now rewrite app_nil_r.
Qed.

Lemma file_callback_text_malformed_skips_write_witness :
  PyFileAccumulator.binary text_accum = false
  /\ utf8_decode deadbeef = None
  /\ exists w',
       PyFileAccumulator.getCallback text_accum deadbeef fresh_world
       = Raised (runtime_error "Could not allocate string object!") w'
       /\ PyFileAccumulator.sink w'
          = PyFileAccumulator.sink (@fresh_world N)
       /\ PyFileAccumulator.writes (PyFileAccumulator.trace w')
          = PyFileAccumulator.writes
              (PyFileAccumulator.trace (@fresh_world N)).
Proof.
  split; [reflexivity|]. split; [reflexivity|].
  apply (file_callback_text_malformed_skips_write str text_accum deadbeef
           fresh_world);
    reflexivity.
Defined.

(** ** [PySinglePartStringAccumulator] *)

(** X9.  The callback sets [invoked] before it decodes.  On a first chunk
    that is not well-formed UTF-8 it raises with [invoked] already set and
    the stored string untouched, so that a [takeValue] afterwards passes
    its assertion and returns the string stored before (the empty string,
    on a new accumulator) rather than failing. *)
Theorem single_callback_malformed_marks_invoked (part : chunk)
    (v : str_holder) :
  utf8_decode part = None ->
  PySinglePartStringAccumulator.getCallback part
    {| PySinglePartStringAccumulator.value := v;
       PySinglePartStringAccumulator.invoked := false |}
  = Raised (runtime_error "Could not allocate string object!")
      {| PySinglePartStringAccumulator.value := v;
         PySinglePartStringAccumulator.invoked := true |}
  /\ PySinglePartStringAccumulator.takeValue
       {| PySinglePartStringAccumulator.value := v;
          PySinglePartStringAccumulator.invoked := true |}
     = Returned v
         {| PySinglePartStringAccumulator.value := None;
            PySinglePartStringAccumulator.invoked := true |}.
Proof.
  intros H. split; [|reflexivity].
  unfold PySinglePartStringAccumulator.getCallback. cbn.
  rewrite (pybind11_str_malformed part H). reflexivity.
Qed.

Lemma single_callback_malformed_marks_invoked_witness :
  utf8_decode [xff] = None
  /\ (PySinglePartStringAccumulator.getCallback [xff]
        {| PySinglePartStringAccumulator.value := str_default;
           PySinglePartStringAccumulator.invoked := false |}
      = Raised (runtime_error "Could not allocate string object!")
          {| PySinglePartStringAccumulator.value := str_default;
             PySinglePartStringAccumulator.invoked := true |}
      /\ PySinglePartStringAccumulator.takeValue
           {| PySinglePartStringAccumulator.value := str_default;
              PySinglePartStringAccumulator.invoked := true |}
         = Returned str_default
             {| PySinglePartStringAccumulator.value := None;
                PySinglePartStringAccumulator.invoked := true |}).
Proof.
  split; [reflexivity|].
  apply (single_callback_malformed_marks_invoked [xff] str_default).
  reflexivity.
Defined.

(** X10.  [takeValue] moves the string out and does not clear [invoked]:
    on an accumulator that was called back, a second [takeValue] passes the
    assertion and returns the null holder, and a callback after
    [takeValue] fails its assertion. *)
Theorem single_take_value_moves_out (part : chunk)
    (accum : PySinglePartStringAccumulator.t) :
  PySinglePartStringAccumulator.invoked accum = true ->
  PySinglePartStringAccumulator.takeValue accum
  = Returned (PySinglePartStringAccumulator.value accum)
      {| PySinglePartStringAccumulator.value := None;
         PySinglePartStringAccumulator.invoked := true |}
  /\ (PySinglePartStringAccumulator.takeValue ;;
      PySinglePartStringAccumulator.takeValue) accum
     = Returned None
         {| PySinglePartStringAccumulator.value := None;
            PySinglePartStringAccumulator.invoked := true |}
  /\ (PySinglePartStringAccumulator.takeValue ;;
      PySinglePartStringAccumulator.getCallback part) accum
     = Aborted "PySinglePartStringAccumulator called back multiple times".
Proof.
  intros H. destruct accum as [v i]. cbn in H. subst i.
  repeat split.
Qed.

Lemma single_take_value_moves_out_witness :
  PySinglePartStringAccumulator.invoked
    {| PySinglePartStringAccumulator.value := Some [72; 105]%N;
       PySinglePartStringAccumulator.invoked := true |} = true
  /\ (PySinglePartStringAccumulator.takeValue
        {| PySinglePartStringAccumulator.value := Some [72; 105]%N;
           PySinglePartStringAccumulator.invoked := true |}
      = Returned
          (PySinglePartStringAccumulator.value
             {| PySinglePartStringAccumulator.value := Some [72; 105]%N;
                PySinglePartStringAccumulator.invoked := true |})
          {| PySinglePartStringAccumulator.value := None;
             PySinglePartStringAccumulator.invoked := true |}
      /\ (PySinglePartStringAccumulator.takeValue ;;
          PySinglePartStringAccumulator.takeValue)
           {| PySinglePartStringAccumulator.value := Some [72; 105]%N;
              PySinglePartStringAccumulator.invoked := true |}
         = Returned None
             {| PySinglePartStringAccumulator.value := None;
                PySinglePartStringAccumulator.invoked := true |}
      /\ (PySinglePartStringAccumulator.takeValue ;;
          PySinglePartStringAccumulator.getCallback [x21])
           {| PySinglePartStringAccumulator.value := Some [72; 105]%N;
              PySinglePartStringAccumulator.invoked := true |}
         = Aborted "PySinglePartStringAccumulator called back multiple times").
Proof.
  split; [reflexivity|].
  apply (single_take_value_moves_out [x21]
           {| PySinglePartStringAccumulator.value := Some [72; 105]%N;
              PySinglePartStringAccumulator.invoked := true |}).
  reflexivity.
Defined.

(** ** [MlirDefaultingCaster] *)

Lemma is_none_true (src : object) : is_none src = true -> src = None_.
Proof. destruct src; cbn; congruence. Qed.

(** X11.  Whenever [load] returns [true], the wrapper it leaves in [value]
    is bound: [get] is not null, and it points to the resolver's result
    when the source was [None] and to the referent inside the source
    otherwise. *)
Theorem load_true_leaves_bound_wrapper (G : Type)
    (resolve : G -> (exn + Defaulting.address) * G)
    (pybind11_cast : object -> exn + Defaulting.address)
    (src : object) (convert : bool)
    (c c' : MlirDefaultingCaster.t) (g g' : G) :
  MlirDefaultingCaster.load resolve pybind11_cast src convert (c, g)
  = Returned true (c', g') ->
  exists r,
    Defaulting.get (MlirDefaultingCaster.value c') = Some r
    /\ Defaulting.get (MlirDefaultingCaster.value c') <> Defaulting.nullptr
    /\ (if is_none src then resolve g = (inr r, g')
        else pybind11_cast src = inr r /\ g' = g).
Proof.
  destruct (is_none src) eqn:N.
  - rewrite (is_none_true src N), load_none_is_resolve.
    destruct (resolve g) as [[e|r] g1]; [discriminate|].
    intros [= <- <-]. exists r. repeat split. discriminate.
  - rewrite (load_object_is_cast G resolve pybind11_cast src convert c g N).
    destruct (pybind11_cast src) as [e|r]; [discriminate|].
    intros [= <- <-]. exists r. repeat split. discriminate.
Qed.

Lemma load_true_leaves_bound_wrapper_witness :
  MlirDefaultingCaster.load Context_resolve Context_cast
    (Instance "Context" 8192) true (scratch_caster, None)
  = Returned true
      ({| MlirDefaultingCaster.value := Defaulting.make 8192%N |}, None)
  /\ exists r,
       Defaulting.get
         (MlirDefaultingCaster.value
            {| MlirDefaultingCaster.value := Defaulting.make 8192%N |})
       = Some r
       /\ Defaulting.get
            (MlirDefaultingCaster.value
               {| MlirDefaultingCaster.value := Defaulting.make 8192%N |})
          <> Defaulting.nullptr
       /\ (if is_none (Instance "Context" 8192)
           then Context_resolve None = (inr r, None)
           else Context_cast (Instance "Context" 8192) = inr r
                /\ @None Defaulting.address = None).
Proof.
  split; [reflexivity|].
  apply (load_true_leaves_bound_wrapper
           (option Defaulting.address) Context_resolve Context_cast
           (Instance "Context" 8192) true scratch_caster
           {| MlirDefaultingCaster.value := Defaulting.make 8192%N |}
           None None).
  reflexivity.
Defined.

(** X12.  [load] returns [false] only for a source that is not [None] and
    that the cast rejects, and then it has changed nothing: the caster
    keeps the wrapper it had and the resolver was not run. *)
Theorem load_false_changes_nothing (G : Type)
    (resolve : G -> (exn + Defaulting.address) * G)
    (pybind11_cast : object -> exn + Defaulting.address)
    (src : object) (convert : bool)
    (c : MlirDefaultingCaster.t) (g : G)
    (st' : MlirDefaultingCaster.t * G) :
  MlirDefaultingCaster.load resolve pybind11_cast src convert (c, g)
  = Returned false st' ->
  is_none src = false
  /\ (exists e, pybind11_cast src = inl e)
  /\ st' = (c, g).
Proof.
  destruct (is_none src) eqn:N.
  - rewrite (is_none_true src N), load_none_is_resolve.
    destruct (resolve g) as [[e|r] g1]; discriminate.
  - rewrite (load_object_is_cast G resolve pybind11_cast src convert c g N).
    destruct (pybind11_cast src) as [e|r]; [|discriminate].
    intros [= <-]. split; [reflexivity|]. split; [now exists e | reflexivity].
Qed.

Lemma load_false_changes_nothing_witness :
  MlirDefaultingCaster.load Context_resolve Context_cast
    (Instance "Module" 512) false (scratch_caster, None)
  = Returned false (scratch_caster, None)
  /\ (is_none (Instance "Module" 512) = false
      /\ (exists e, Context_cast (Instance "Module" 512) = inl e)
      /\ (scratch_caster, @None Defaulting.address) = (scratch_caster, None)).
Proof.
  split; [reflexivity|].
  apply (load_false_changes_nothing
           (option Defaulting.address) Context_resolve Context_cast
           (Instance "Module" 512) false scratch_caster None
           (scratch_caster, None)).
  reflexivity.
Defined.

(** X13.  The only exception that leaves [load] is the resolver's: when
    [load] raises, the source was [None], the exception is the one the
    resolver raised, and the caster keeps the wrapper it had.  An exception
    of the cast never leaves [load]. *)
Theorem load_raises_only_from_resolve (G : Type)
    (resolve : G -> (exn + Defaulting.address) * G)
    (pybind11_cast : object -> exn + Defaulting.address)
    (src : object) (convert : bool)
    (c : MlirDefaultingCaster.t) (g : G) (e : exn)
    (st' : MlirDefaultingCaster.t * G) :
  MlirDefaultingCaster.load resolve pybind11_cast src convert (c, g)
  = Raised e st' ->
  src = None_
  /\ exists g', resolve g = (inl e, g') /\ st' = (c, g').
Proof.
  destruct (is_none src) eqn:N.
  - rewrite (is_none_true src N), load_none_is_resolve.
    destruct (resolve g) as [[e1|r] g1]; [|discriminate].
    intros [= <- <-]. split; [reflexivity|]. now exists g1.
  - rewrite (load_object_is_cast G resolve pybind11_cast src convert c g N).
    destruct (pybind11_cast src); discriminate.
Qed.

Lemma load_raises_only_from_resolve_witness :
  MlirDefaultingCaster.load Context_resolve Context_cast None_ true
    (scratch_caster, None)
  = Raised (error_already_set "RuntimeError" "no current default")
      (scratch_caster, None)
  /\ (None_ = None_
      /\ exists g',
           Context_resolve None
           = (inl (error_already_set "RuntimeError" "no current default"), g')
           /\ (scratch_caster, @None Defaulting.address)
              = (scratch_caster, g')).
Proof.
  split; [reflexivity|].
  apply (load_raises_only_from_resolve
           (option Defaulting.address) Context_resolve Context_cast
           None_ true scratch_caster None
           (error_already_set "RuntimeError" "no current default")
           (scratch_caster, None)).
  reflexivity.
Defined.

(** ** Deliveries to a [PyFileAccumulator] *)

Lemma file_feed_app (Sink : Type) (accum : PyFileAccumulator.t Sink)
    (chunks chunks' : list chunk) (w : PyFileAccumulator.world Sink) :
  PyFileAccumulator.feed accum (chunks ++ chunks') w
  = (PyFileAccumulator.feed accum chunks ;;
     PyFileAccumulator.feed accum chunks') w.
Proof.
  revert w. induction chunks as [|c chunks IH]; intros w; simpl.
  - reflexivity.
  - unfold bind.
    destruct (PyFileAccumulator.getCallback accum c w) as [[] w1|e w1|msg];
      try reflexivity.
    rewrite IH. reflexivity.
Qed.

(** X14.  Nothing is undone when a text-mode delivery fails on a chunk
    that is not well-formed UTF-8: what the chunks before it wrote stays in
    the sink, the failing chunk and the chunks after it write nothing, and
    the delivery ends with the exception. *)
Theorem file_feed_keeps_earlier_writes (Sink : Type)
    (accum : PyFileAccumulator.t Sink)
    (before : list chunk) (bad : chunk) (after : list chunk)
    (w w1 : PyFileAccumulator.world Sink) :
  PyFileAccumulator.binary accum = false ->
  PyFileAccumulator.feed accum before w = Returned tt w1 ->
  utf8_decode bad = None ->
  exists w',
    PyFileAccumulator.feed accum (before ++ bad :: after) w
    = Raised (runtime_error "Could not allocate string object!") w'
    /\ PyFileAccumulator.sink w' = PyFileAccumulator.sink w1
    /\ PyFileAccumulator.writes (PyFileAccumulator.trace w')
       = PyFileAccumulator.writes (PyFileAccumulator.trace w1).
Proof.
  intros B F D. rewrite file_feed_app. unfold bind. rewrite F.
  simpl. unfold bind.
  rewrite (file_callback_malformed Sink accum bad w1 B D).
  eexists. split; [reflexivity|]. split; [reflexivity|].
  cbn. rewrite writes_app. cbn. now rewrite app_nil_r.
Qed.

Lemma file_feed_keeps_earlier_writes_witness :
  PyFileAccumulator.binary text_accum = false
  /\ PyFileAccumulator.feed text_accum [[x48; x65]] fresh_world
     = Returned tt
         {| PyFileAccumulator.sink := [72; 101]%N;
            PyFileAccumulator.trace :=
              [PyFileAccumulator.gil_acquire; PyFileAccumulator.gil_release;
               PyFileAccumulator.py_write (Str_ [72; 101]%N)] |}
  /\ utf8_decode [xc3] = None
  /\ exists w',
       PyFileAccumulator.feed text_accum
         ([[x48; x65]] ++ [xc3] :: [[xa9]]) fresh_world
       = Raised (runtime_error "Could not allocate string object!") w'
       /\ PyFileAccumulator.sink w' = [72; 101]%N
       /\ PyFileAccumulator.writes (PyFileAccumulator.trace w')
          = PyFileAccumulator.writes
              [PyFileAccumulator.gil_acquire; PyFileAccumulator.gil_release;
               PyFileAccumulator.py_write (Str_ [72; 101]%N)].
Proof.
  split; [reflexivity|]. split; [reflexivity|]. split; [reflexivity|].
  apply (file_feed_keeps_earlier_writes str text_accum
           [[x48; x65]] [xc3] [[xa9]] fresh_world
           {| PyFileAccumulator.sink := [72; 101]%N;
              PyFileAccumulator.trace :=
                [PyFileAccumulator.gil_acquire; PyFileAccumulator.gil_release;
                 PyFileAccumulator.py_write (Str_ [72; 101]%N)] |});
    reflexivity.
Defined.
